(** * torch/__init__.py: the Python front-end glue of the tensor library

    A shallow embedding of [src/torch/__init__.py]: the basic utilities
    ([typename], [is_tensor], [is_storage]), the two default-type setters,
    the storage class shims and the namespace assembly performed at import
    time.  The native extension [torch._C] and the helper modules the file
    imports are not part of the sources; what the development needs from
    them is either taken as a Section variable or modelled from the
    specification, and marked as such. *)

From Stdlib Require Import ZArith Lia Ascii.
From stdpp Require Import base decidable countable gmap strings list.

Set Warnings "-register-all".
Local Open Scope string_scope.

(** ** Failures *)

(** The failure taxonomy of the specification (section 7), together with the
    Python exceptions the source itself raises. *)
Inductive error :=
  | DuplicateRegistration
  | UnknownType
  | MalformedTypeName
  | AllocationFailure
  | UnsupportedDefaultKind
  | ShapeStrideMismatch
  | IncompatibleShape
  | IndexOutOfRange
  | PyTypeError
  | PyIndexError
  | PyNameError
  | PyKeyError
  | PyRuntimeError (msg : string)
  | PyException (name : string).

Inductive result (A : Type) :=
  | Ok (a : A)
  | Err (e : error).
Arguments Ok {A} a.
Arguments Err {A} e.

#[global] Instance error_eq_dec : EqDecision error.
Proof. solve_decision. Defined.

#[global] Instance result_ret : MRet result := fun _ a => Ok a.
#[global] Instance result_bind : MBind result := fun _ _ f m =>
  match m with
  | Ok a => f a
  | Err e => Err e
  end.


(** ** Element kinds *)

(** The scalar representations ([torch.dtype]) that own a storage class. *)
Inductive dtype :=
  | float64 | float32 | float16
  | int64 | int32 | int16 | int8
  | uint8
  | boolean
  | qint8 | quint8 | qint32
  | bfloat16.

#[global] Instance dtype_eq_dec : EqDecision dtype.
Proof. solve_decision. Defined.

Definition all_dtypes : list dtype :=
  [float64; float32; float16; int64; int32; int16; int8; uint8; boolean;
   qint8; quint8; qint32; bfloat16].

Definition dtype_index (k : dtype) : nat :=
  match k with
  | float64 => 0 | float32 => 1 | float16 => 2
  | int64 => 3 | int32 => 4 | int16 => 5 | int8 => 6
  | uint8 => 7 | boolean => 8
  | qint8 => 9 | quint8 => 10 | qint32 => 11
  | bfloat16 => 12
  end.

#[global] Instance dtype_countable : Countable dtype.
Proof.
  refine (inj_countable dtype_index (fun n => all_dtypes !! n) _).
  by intros [].
Defined.

(** Floating-point kinds: the three IEEE widths and the brain-float. *)
Definition is_floating_point (k : dtype) : bool :=
  match k with
  | float64 | float32 | float16 | bfloat16 => true
  | _ => false
  end.

(** ** Python classes and objects *)

(** A class object: its identity (two class objects are one class only if
    they are the same object), its module and name, whether its body
    changes what [__class__] answers for its instances (a [__class__]
    property or an attribute hook of its own), and its bases. *)
Inductive pyclass :=
  | PyClass (cls_id : nat) (cls_module cls_name : string)
      (cls_own_class_attr : bool) (cls_bases : list pyclass).

Definition cls_module (c : pyclass) : string :=
  match c with PyClass _ m _ _ _ => m end.
Definition cls_name (c : pyclass) : string :=
  match c with PyClass _ _ n _ _ => n end.
Definition cls_bases (c : pyclass) : list pyclass :=
  match c with PyClass _ _ _ _ bs => bs end.

Fixpoint pyclass_eqb (c d : pyclass) : bool :=
  match c, d with
  | PyClass i m n p bs, PyClass i' m' n' p' bs' =>
      Nat.eqb i i' && String.eqb m m' && String.eqb n n' && Bool.eqb p p' &&
      (fix go (l l' : list pyclass) : bool :=
         match l, l' with
         | [], [] => true
         | x :: l, y :: l' => pyclass_eqb x y && go l l'
         | _, _ => false
         end) bs bs'
  end.

(** [issubclass(c, d)]: [d] is [c] or an ancestor of [c]. *)
Fixpoint issubclass (c d : pyclass) : bool :=
  match c with
  | PyClass _ _ _ _ bs =>
      pyclass_eqb c d || existsb (fun b => issubclass b d) bs
  end.

(** The same relation as a derivation: [d] is reached from [c] by following
    base-class edges. *)
Inductive subclass_of : pyclass -> pyclass -> Prop :=
  | subclass_refl (c : pyclass) : subclass_of c c
  | subclass_base (c b d : pyclass) :
      b ∈ cls_bases c -> subclass_of b d -> subclass_of c d.

(** A strict subclass: [d] is reached through at least one base edge. *)
Definition strict_subclass_of (c d : pyclass) : Prop :=
  exists b, b ∈ cls_bases c /\ subclass_of b d.

(** Depth of the inheritance tree above a class. *)
Fixpoint cls_height (c : pyclass) : nat :=
  match c with
  | PyClass _ _ _ _ bs => S (foldr (fun b h => Nat.max (cls_height b) h) 0 bs)
  end.

(** The class or one of its ancestors changes [__class__], as the classes
    of [unittest.mock] do; otherwise [o.__class__] is [type(o)]. *)
Fixpoint overrides_class (c : pyclass) : bool :=
  match c with
  | PyClass _ _ _ p bs => p || existsb overrides_class bs
  end.

(** Attribute values: [None], a [str], or something that is neither. *)
Inductive pyval :=
  | VNone
  | VStr (s : string)
  | VInt (n : Z).

#[global] Instance pyval_eq_dec : EqDecision pyval.
Proof. solve_decision. Defined.

(** What the utilities observe of an object: its exact type; the class an
    overriding [__class__] attribute answers with; the result of [getattr]
    for the three attributes [typename] reads ([None] when [hasattr] is
    false); and the outcome of calling its [type()] method, a value or an
    exception. *)
Record pyobj := {
  ob_type : pyclass;
  ob_class_attr : pyclass;
  ob_module : option pyval;
  ob_qualname : option pyval;
  ob_name : option pyval;
  ob_type_method : result pyval
}.

(** [o.__class__] *)
Definition py_class (o : pyobj) : pyclass :=
  if overrides_class (ob_type o) then ob_class_attr o else ob_type o.

(** [isinstance(o, c)]: the exact type is tried first, then [o.__class__]. *)
Definition isinstance (o : pyobj) (c : pyclass) : bool :=
  issubclass (ob_type o) c || issubclass (py_class o) c.

Definition object : pyclass := PyClass 0 "builtins" "object" false [].

(** [torch.Tensor], from [torch/tensor.py]: a subclass of the extension's
    [_TensorBase]. *)
Definition Tensor : pyclass :=
  PyClass 2 "torch" "Tensor" false
    [PyClass 1 "torch._C" "_TensorBase" false [object]].

(** ** Storage classes (lines 176-230) *)

Definition _StorageBase : pyclass :=
  PyClass 3 "torch.storage" "_StorageBase" false [object].

(** [class <P>Storage(_C.<P>StorageBase, _StorageBase): pass], the [n]-th
    class statement of the block. *)
Definition storage_shim (n : nat) (prefix : string) : pyclass :=
  PyClass (20 + n) "torch" (prefix +:+ "Storage") false
    [PyClass (4 + n) "torch._C" (prefix +:+ "StorageBase") false [object];
     _StorageBase].

Definition DoubleStorage := storage_shim 0 "Double".
Definition FloatStorage := storage_shim 1 "Float".
Definition HalfStorage := storage_shim 2 "Half".
Definition LongStorage := storage_shim 3 "Long".
Definition IntStorage := storage_shim 4 "Int".
Definition ShortStorage := storage_shim 5 "Short".
Definition CharStorage := storage_shim 6 "Char".
Definition ByteStorage := storage_shim 7 "Byte".
Definition BoolStorage := storage_shim 8 "Bool".
Definition BFloat16Storage := storage_shim 9 "BFloat16".
Definition QUInt8Storage := storage_shim 10 "QUInt8".
Definition QInt8Storage := storage_shim 11 "QInt8".
Definition QInt32Storage := storage_shim 12 "QInt32".

Definition _storage_classes : list pyclass :=
  [DoubleStorage; FloatStorage; LongStorage; IntStorage; ShortStorage;
   CharStorage; ByteStorage; HalfStorage; BoolStorage; QUInt8Storage;
   QInt8Storage; QInt32Storage; BFloat16Storage].

(** The name prefix of the storage class that holds a kind. *)
Definition kind_prefix (k : dtype) : string :=
  match k with
  | float64 => "Double" | float32 => "Float" | float16 => "Half"
  | int64 => "Long" | int32 => "Int" | int16 => "Short" | int8 => "Char"
  | uint8 => "Byte" | boolean => "Bool"
  | qint8 => "QInt8" | quint8 => "QUInt8" | qint32 => "QInt32"
  | bfloat16 => "BFloat16"
  end.

(** The kind exposed by a class: defined on the storage classes only, and
    read off the class name. *)
Definition storage_kind (c : pyclass) : option dtype :=
  if existsb (pyclass_eqb c) _storage_classes then
    List.find (fun k => String.eqb (cls_name c) (kind_prefix k +:+ "Storage"))
      all_dtypes
  else None.

(** ** Basic utilities (lines 80-115) *)

Definition str_add (a b : pyval) : result string :=
  match a, b with
  | VStr x, VStr y => Ok (x +:+ y)
  | _, _ => Err PyTypeError
  end.

(** Lines 90-95: the name part of [typename]. *)
Definition class_name_of (o : pyobj) : pyval :=
  match ob_qualname o with
  | Some q => q
  | None =>
      match ob_name o with
      | Some n => n
      | None => VStr (cls_name (py_class o))
      end
  end.

Definition typename (o : pyobj) : result pyval :=
  if isinstance o Tensor then ob_type_method o
  else
    module ←
      match ob_module o with
      | Some m =>
          if bool_decide (m ≠ VStr "builtins")
             && bool_decide (m ≠ VStr "__builtin__")
             && bool_decide (m ≠ VNone)
          then str_add m (VStr ".")
          else Ok ""
      | None => Ok ""
      end;
    name ← str_add (VStr module) (class_name_of o);
    Ok (VStr name).

(** A plain instance of a class: [__class__] is the class, [__module__] is
    found on the class, and an instance has neither [__qualname__] nor
    [__name__]. *)
Definition instance_of (c : pyclass) (type_method : result pyval) : pyobj :=
  {| ob_type := c; ob_class_attr := c;
     ob_module := Some (VStr (cls_module c));
     ob_qualname := None; ob_name := None; ob_type_method := type_method |}.

(** The same object seen with other attribute values. *)
Definition with_attrs (o : pyobj) (m q n : option pyval) : pyobj :=
  {| ob_type := ob_type o; ob_class_attr := ob_class_attr o;
     ob_module := m; ob_qualname := q; ob_name := n;
     ob_type_method := ob_type_method o |}.

Definition is_tensor (obj : pyobj) : bool := isinstance obj Tensor.

Definition is_storage (obj : pyobj) : bool :=
  existsb (pyclass_eqb (ob_type obj)) _storage_classes.

(** ** Backends and tensor types *)

(** The device tag of the specification's glossary: host memory or
    accelerator memory. *)
Inductive backend := CPU | CUDA.

#[global] Instance backend_eq_dec : EqDecision backend.
Proof. solve_decision. Defined.

#[global] Instance backend_countable : Countable backend.
Proof.
  refine (inj_countable' (fun b => match b with CPU => false | CUDA => true end)
            (fun x : bool => if x then CUDA else CPU) _).
  by intros [].
Defined.

(** A type descriptor is a (backend, element kind) pair. *)
Abbreviation tensor_type := (backend * dtype)%type.

Definition backend_module (b : backend) : string :=
  match b with
  | CPU => "torch."
  | CUDA => "torch.cuda."
  end.

(** The canonical dotted name "backend.KindTensor" of a descriptor. *)
Definition type_name (t : tensor_type) : string :=
  backend_module (fst t) +:+ kind_prefix (snd t) +:+ "Tensor".

Definition all_tensor_types : list tensor_type :=
  b ← [CPU; CUDA]; k ← all_dtypes; [(b, k)].

Definition parse_type_name (name : string) : option tensor_type :=
  List.find (fun t => String.eqb (type_name t) name) all_tensor_types.

(** ** TypeRegistry (specification 4.1) *)

Module TypeRegistry.
Section registry.
Context {F : Type}.

(** Modelled from the spec: the registry itself is not in
    [src/torch/__init__.py].  An append-only finite map from
    (backend, kind) to a factory; [register] fails with
    [DuplicateRegistration] when the pair already has an entry and leaves
    the registry as it was. *)
Definition register (b : backend) (k : dtype) (f : F)
    (reg : gmap tensor_type F) : result unit * gmap tensor_type F :=
  match reg !! (b, k) with
  | Some _ => (Err DuplicateRegistration, reg)
  | None => (Ok (), <[(b, k) := f]> reg)
  end.

(** Modelled from the spec: [resolve] of the absent registry; fails with
    [UnknownType] if the pair has no entry. *)
Definition resolve (b : backend) (k : dtype)
    (reg : gmap tensor_type F) : result F :=
  match reg !! (b, k) with
  | Some f => Ok f
  | None => Err UnknownType
  end.

(** A registration phase: the calls in order, with their outcomes. *)
Fixpoint register_all (calls : list (tensor_type * F))
    (reg : gmap tensor_type F) : list (result unit) * gmap tensor_type F :=
  match calls with
  | [] => ([], reg)
  | (t, f) :: calls' =>
      let '(r, reg') := register (fst t) (snd t) f reg in
      let '(rs, reg'') := register_all calls' reg' in
      (r :: rs, reg'')
  end.

(** The factory of the first call that names a pair. *)
Fixpoint first_registered (t : tensor_type) (calls : list (tensor_type * F))
    : option F :=
  match calls with
  | [] => None
  | (t', f) :: calls' =>
      if decide (t' = t) then Some f else first_registered t calls'
  end.
End registry.
End TypeRegistry.

(** ** DefaultTypeState (specification 4.3) *)

Record DefaultTypeState := {
  default_dtype : dtype;
  default_tensor_type : tensor_type
}.

(** Modelled from the spec: the state the absent extension holds at process
    start, 32-bit float and the generic CPU float tensor (the docstrings of
    both setters name the same initial values). *)
Definition initial_state : DefaultTypeState :=
  {| default_dtype := float32; default_tensor_type := (CPU, float32) |}.

(** The argument of [set_default_tensor_type], "type or string": a value
    for which [isinstance(t, _string_classes)] holds, or any other
    object. *)
Inductive type_or_string (T : Type) :=
  | PyStr (s : string)
  | PyObj (t : T).
Arguments PyStr {T} s.
Arguments PyObj {T} t.

Module _C.
(** Modelled from the spec: [torch._C._set_default_dtype] is native code
    outside the sources.  It fails with [UnsupportedDefaultKind] unless
    the kind is a floating-point kind; on success the default kind and the
    default type descriptor change together (section 5: a kind update is
    never visible with a stale descriptor). *)
Definition _set_default_dtype (d : dtype) (st : DefaultTypeState)
    : result unit * DefaultTypeState :=
  if is_floating_point d then
    (Ok (), {| default_dtype := d;
               default_tensor_type := (fst (default_tensor_type st), d) |})
  else (Err UnsupportedDefaultKind, st).

(** Modelled from the spec: [torch._C._set_default_tensor_type] is native
    code outside the sources.  The descriptor is resolved in the registry
    and the call fails with [UnknownType] if that fails, as it does for a
    value that is no descriptor at all; only a floating-point type may
    become the default (the docstring of [set_default_tensor_type]:
    "floating point tensor type t", which "will also be used as default
    floating point type for type inference"). *)
Definition _set_default_tensor_type {F} (reg : gmap tensor_type F)
    (t : type_or_string tensor_type) (st : DefaultTypeState)
    : result unit * DefaultTypeState :=
  match t with
  | PyStr _ => (Err UnknownType, st)
  | PyObj d =>
      match TypeRegistry.resolve (fst d) (snd d) reg with
      | Err e => (Err e, st)
      | Ok _ =>
          if is_floating_point (snd d) then
            (Ok (), {| default_dtype := snd d; default_tensor_type := d |})
          else (Err UnsupportedDefaultKind, st)
      end
  end.
End _C.

(** Modelled from the spec: [torch._utils._import_dotted_name] is outside
    the sources, and the source passes its exception on as it is.  The
    dotted name is parsed as a canonical type name and resolved in the
    registry; section 4.3 names the failure of this resolution
    [UnknownType]. *)
Definition _import_dotted_name {F} (reg : gmap tensor_type F) (name : string)
    : result (type_or_string tensor_type) :=
  match parse_type_name name with
  | Some t => _ ← TypeRegistry.resolve (fst t) (snd t) reg; Ok (PyObj t)
  | None => Err UnknownType
  end.

(** ** The default-type setters (lines 118-161) *)

Section setters.
Context {T : Type}.
(** The two callees that live outside the sources: the resolver may return
    any object, a string included, and the extension's setter is handed
    whatever [t] is bound to. *)
Variable import_dotted_name : string -> result (type_or_string T).
Variable C_set_default_tensor_type :
  type_or_string T -> DefaultTypeState -> result unit * DefaultTypeState.

Definition set_default_tensor_type (t : type_or_string T)
    (st : DefaultTypeState) : result unit * DefaultTypeState :=
  match t with
  | PyStr name =>
      match import_dotted_name name with
      | Err e => (Err e, st)
      | Ok t' => C_set_default_tensor_type t' st
      end
  | PyObj _ => C_set_default_tensor_type t st
  end.
End setters.

Definition set_default_dtype (d : dtype) (st : DefaultTypeState)
    : result unit * DefaultTypeState :=
  _C._set_default_dtype d st.

(** The Python scalars a tensor is built from. *)
Inductive scalar_data :=
  | FloatData
  | IntData
  | BoolData.

(** Modelled from the spec: tensor construction is native code outside the
    sources.  A call site that omits the dtype infers it from the data; the
    default element kind is the one "for floating-point inference"
    (section 3; the docstring of [set_default_dtype]: "default floating
    point type for type inference in torch.tensor"), so it is read for
    floating-point data only: integers give 64-bit integers and booleans
    give booleans.  The result is the element kind of the new tensor. *)
Definition tensor_dtype (data : scalar_data) (dtype_arg : option dtype)
    (st : DefaultTypeState) : dtype :=
  match dtype_arg with
  | Some d => d
  | None =>
      match data with
      | FloatData => default_dtype st
      | IntData => int64
      | BoolData => boolean
      end
  end.

(** A client session: setter calls and tensor constructions in order. *)
Inductive call :=
  | CallSetDefaultDtype (d : dtype)
  | CallSetDefaultTensorType (t : type_or_string tensor_type)
  | CallTensor (data : scalar_data) (dtype_arg : option dtype).

Inductive outcome :=
  | Raised (e : error)
  | Returned
  | Built (k : dtype).

Definition outcome_of (r : result unit) : outcome :=
  match r with
  | Ok _ => Returned
  | Err e => Raised e
  end.

Section session.
Context {F : Type}.
Variable reg : gmap tensor_type F.

Definition step (c : call) (st : DefaultTypeState)
    : outcome * DefaultTypeState :=
  match c with
  | CallSetDefaultDtype d =>
      let '(r, st') := set_default_dtype d st in (outcome_of r, st')
  | CallSetDefaultTensorType t =>
      let '(r, st') :=
        set_default_tensor_type (_import_dotted_name reg)
          (_C._set_default_tensor_type reg) t st in
      (outcome_of r, st')
  | CallTensor data dt => (Built (tensor_dtype data dt st), st)
  end.

Fixpoint run (calls : list call) (st : DefaultTypeState)
    : list outcome * DefaultTypeState :=
  match calls with
  | [] => ([], st)
  | c :: calls' =>
      let '(o, st') := step c st in
      let '(os, st'') := run calls' st' in
      (o :: os, st'')
  end.
End session.

(** An example of a registry after the registration phase, to run the
    definitions on: the dense tensor types of both backends for the ten
    element kinds that are not quantized ([torch.FloatTensor], ...,
    [torch.cuda.BFloat16Tensor]), the canonical name standing for the
    factory. *)
Definition torch_registry : gmap tensor_type string :=
  snd (TypeRegistry.register_all
         ((fun t => (t, type_name t)) <$>
            (b ← [CPU; CUDA];
             k ← [float64; float32; float16; int64; int32; int16; int8;
                  uint8; boolean; bfloat16];
             [(b, k)]))
         ∅).

(** ** Storage and TensorView (specification 3 and 4.4) *)

Record Storage := {
  st_kind : dtype;
  st_capacity : nat;
  st_backend : backend
}.

Record TensorView := {
  tv_shape : list nat;
  tv_stride : list nat;
  tv_offset : nat;
  tv_dtype : dtype;
  tv_storage : Storage
}.

Module View.
(** The element index a multi-index addresses. *)
Fixpoint project (index stride : list nat) (offset : nat) : nat :=
  match index, stride with
  | i :: index', s :: stride' => i * s + project index' stride' offset
  | _, _ => offset
  end.

(** A multi-index is valid when it has one coordinate per dimension, each
    below that dimension's extent. *)
Definition valid_index (index shape : list nat) : Prop :=
  Forall2 lt index shape.

(** Every valid multi-index of a shape, in row-major order. *)
Fixpoint multi_indices (shape : list nat) : list (list nat) :=
  match shape with
  | [] => [[]]
  | n :: shape' =>
      i ← seq 0 n; (fun index => i :: index) <$> multi_indices shape'
  end.

(** Modelled from the spec: tensor views are native code outside the
    sources.  [construct] fails with [ShapeStrideMismatch] if any valid
    multi-index would project outside the storage's capacity; the view it
    returns has the storage's element kind. *)
Definition construct (storage : Storage) (shape stride : list nat)
    (offset : nat) : result TensorView :=
  if forallb (fun index => Nat.ltb (project index stride offset) (st_capacity storage))
       (multi_indices shape)
  then Ok {| tv_shape := shape; tv_stride := stride; tv_offset := offset;
             tv_dtype := st_kind storage; tv_storage := storage |}
  else Err ShapeStrideMismatch.
End View.

(** ** Namespace assembly at import time *)

(** [str.startswith] and [str.endswith]. *)
Definition startswith (s p : string) : bool := String.prefix p s.

Definition endswith (s suffix : string) : bool :=
  let n := String.length s in
  let m := String.length suffix in
  (m <=? n)%nat && String.eqb (String.substring (n - m) m s) suffix.

(** [sep.join(parts)]. *)
Fixpoint join (sep : string) (parts : list string) : string :=
  match parts with
  | [] => ""
  | [p] => p
  | p :: parts' => p +:+ sep +:+ join sep parts'
  end.

(** The literal of lines 22-31. *)
Definition __all__ : list string :=
  ["typename"; "is_tensor"; "is_storage"; "set_default_tensor_type";
   "set_rng_state"; "get_rng_state"; "manual_seed"; "initial_seed"; "seed";
   "save"; "load"; "set_printoptions"; "chunk"; "split"; "stack"; "matmul";
   "no_grad"; "enable_grad"; "rand"; "randn";
   "DoubleStorage"; "FloatStorage"; "LongStorage"; "IntStorage";
   "ShortStorage"; "CharStorage"; "ByteStorage"; "BoolStorage";
   "DoubleTensor"; "FloatTensor"; "LongTensor"; "IntTensor";
   "ShortTensor"; "CharTensor"; "ByteTensor"; "BoolTensor"; "Tensor"].

(** The filter of lines 71-73:
    [name[0] != '_' and not name.endswith('Base')].  Indexing the empty
    string raises [IndexError]. *)
Definition exported (name : string) : result bool :=
  match name with
  | EmptyString => Err PyIndexError
  | String c _ => Ok (negb (Ascii.eqb c "_"%char) && negb (endswith name "Base"))
  end.

(** The filter of the comprehension, for a non-empty name. *)
Definition is_public (name : string) : bool :=
  negb (startswith name "_") && negb (endswith name "Base").

(** The list comprehension over [dir(_C)]. *)
Fixpoint public_names (names : list string) : result (list string) :=
  match names with
  | [] => Ok []
  | name :: names' =>
      keep ← exported name;
      rest ← public_names names';
      Ok (if keep : bool then name :: rest else rest)
  end.

(** [__all__ += [...]] *)
Definition extend_all (dir_C : list string) : result (list string) :=
  extra ← public_names dir_C;
  Ok (__all__ ++ extra)%list.

Section globals.
Context {V : Type}.


(** [del name]: unbinding a name that is not bound raises [NameError]. *)
Definition del (name : string) (globals : gmap string V)
    : result (gmap string V) :=
  match globals !! name with
  | Some _ => Ok (delete name globals)
  | None => Err PyNameError
  end.

Fixpoint del_all (names : list string) (globals : gmap string V)
    : result (gmap string V) :=
  match names with
  | [] => Ok globals
  | name :: names' => g ← del name globals; del_all names' g
  end.

(** Lines 271-280. *)
Definition unnecessary_members : list string :=
  ["DoubleStorageBase"; "FloatStorageBase"; "LongStorageBase";
   "IntStorageBase"; "ShortStorageBase"; "CharStorageBase";
   "ByteStorageBase"; "BoolStorageBase"; "QUInt8StorageBase";
   "BFloat16StorageBase"].

Definition remove_unnecessary_members (globals : gmap string V)
    : result (gmap string V) :=
  del_all unnecessary_members globals.
End globals.

(** ** Loading the extension (lines 37-51 and 240-247) *)

Section loading.
(** [platform.system()], the [os.path] functions, [get_file_path] of
    [_utils_internal], [__file__] and [sys.exec_prefix]. *)
Variable system : string.
Variable os_path_join : list string -> string.
Variable os_path_exists : string -> bool.
Variable os_path_dirname : string -> string.
Variable get_file_path : list string -> string.
Variable __file__ sys_exec_prefix : string.

(** Lines 37-51: on Windows the DLL directories are put in front of
    [PATH].  [os.environ['PATH']] raises [KeyError] when unset. *)
Definition extend_dll_path (environ : gmap string string)
    : result (gmap string string) :=
  if String.eqb system "Windows" then
    let NVTOOLSEXT_PATH :=
      default "C:\Program Files\NVIDIA Corporation\NvToolsExt"
              (environ !! "NVTOOLSEXT_PATH") in
    let nvtoolsext_lib_path :=
      if os_path_exists NVTOOLSEXT_PATH
      then os_path_join [NVTOOLSEXT_PATH; "bin"; "x64"]
      else "" in
    let py_dll_path := os_path_join [sys_exec_prefix; "Library"; "bin"] in
    let th_dll_path := os_path_join [os_path_dirname __file__; "lib"] in
    match environ !! "PATH" with
    | None => Err PyKeyError
    | Some path =>
        let dll_paths :=
          [th_dll_path; py_dll_path; nvtoolsext_lib_path; path] in
        Ok (<["PATH" := join ";" dll_paths]> environ)
    end
  else Ok environ.

(** Lines 240-247.  Strings are byte strings, so [encode('utf-8')] keeps
    the path as it is. *)
Definition manager_path : result string :=
  if String.eqb system "Windows" then Ok ""
  else
    let path := get_file_path ["torch"; "bin"; "torch_shm_manager"] in
    if negb (os_path_exists path)
    then Err (PyRuntimeError ("Unable to find torch_shm_manager at " +:+ path))
    else Ok path.
End loading.

(** * Properties *)

(** ** Classes *)

Lemma pyclass_rect_bases (P : pyclass -> Prop) :
  (forall i m n p bs, Forall P bs -> P (PyClass i m n p bs)) -> forall c, P c.
Proof.
  intros step. fix self 1. intros [i m n p bs]. apply step.
  induction bs as [|b bs IH]; constructor; [apply self | exact IH].
Qed.

Lemma pyclass_eqb_eq (c d : pyclass) : pyclass_eqb c d = true <-> c = d.
Proof.
  revert d. induction c as [i m n p bs IH] using pyclass_rect_bases.
  intros [i' m' n' p' bs']. cbn [pyclass_eqb].
  rewrite !andb_true_iff, !String.eqb_eq, Nat.eqb_eq, Bool.eqb_true_iff.
  assert (inner : forall l',
    (fix go (l l' : list pyclass) : bool :=
       match l, l' with
       | [], [] => true
       | x :: l, y :: l' => pyclass_eqb x y && go l l'
       | _, _ => false
       end) bs l' = true <-> bs = l').
  { induction IH as [|b bs Hb _ IHbs]; intros [|b' l']; try (split; [discriminate | congruence]).
    - tauto.
    - rewrite andb_true_iff, Hb, IHbs. split; [intros [-> ->]; reflexivity | intros [= -> ->]; tauto]. }
  rewrite inner.
  split; [intros [[[[-> ->] ->] ->] ->]; reflexivity | intros [= -> -> -> -> ->]; tauto].
Qed.

Lemma pyclass_eqb_refl (c : pyclass) : pyclass_eqb c c = true.
Proof. by apply pyclass_eqb_eq. Qed.

#[global] Instance pyclass_eq_dec : EqDecision pyclass.
Proof.
  intros c d. destruct (pyclass_eqb c d) eqn:E.
  - left. by apply pyclass_eqb_eq.
  - right. intros ->. by rewrite pyclass_eqb_refl in E.
Defined.

Lemma issubclass_unfold (c d : pyclass) :
  issubclass c d = pyclass_eqb c d || existsb (fun b => issubclass b d) (cls_bases c).
Proof. by destruct c. Qed.

Lemma issubclass_subclass_of (c d : pyclass) :
  issubclass c d = true <-> subclass_of c d.
Proof.
  split.
  - induction c as [i m n p bs IH] using pyclass_rect_bases.
    rewrite issubclass_unfold, orb_true_iff, existsb_exists. cbn [cls_bases].
    intros [E | (b & Hb & Hsub)].
    + apply pyclass_eqb_eq in E as <-. constructor.
    + apply list_elem_of_In in Hb.
      apply (subclass_base _ b); [exact Hb |].
      rewrite Forall_forall in IH. by apply IH.
  - induction 1 as [c | c b d Hb _ IH]; rewrite issubclass_unfold, orb_true_iff.
    + left. apply pyclass_eqb_refl.
    + right. apply existsb_exists. exists b. by rewrite <- list_elem_of_In.
Qed.

Lemma cls_height_base (c b : pyclass) :
  b ∈ cls_bases c -> cls_height b < cls_height c.
Proof.
  destruct c as [i m n p bs]. cbn [cls_bases cls_height].
  induction 1 as [b bs | b b' bs _ IH]; cbn [foldr]; lia.
Qed.

Lemma subclass_of_height (c d : pyclass) :
  subclass_of c d -> cls_height d <= cls_height c.
Proof.
  induction 1 as [|c b d Hb _ IH]; [lia |].
  apply cls_height_base in Hb. lia.
Qed.

Lemma strict_subclass_height (c d : pyclass) :
  strict_subclass_of c d -> cls_height d < cls_height c.
Proof.
  intros (b & Hb & Hsub).
  apply cls_height_base in Hb. apply subclass_of_height in Hsub. lia.
Qed.

Lemma is_storage_elem_of (o : pyobj) :
  is_storage o = true <-> ob_type o ∈ _storage_classes.
Proof.
  unfold is_storage. rewrite existsb_exists. split.
  - intros (c & Hc & E). apply pyclass_eqb_eq in E as ->.
    by apply list_elem_of_In.
  - intros Hc. exists (ob_type o). split; [by apply list_elem_of_In |].
    apply pyclass_eqb_refl.
Qed.

Lemma storage_classes_height (c : pyclass) :
  c ∈ _storage_classes -> cls_height c = 3.
Proof.
  unfold _storage_classes. rewrite !elem_of_cons, elem_of_nil.
  intros H. repeat (destruct H as [-> | H]; [reflexivity |]). done.
Qed.

(** ** Storage classes and element kinds *)

Lemma all_dtypes_complete (k : dtype) : k ∈ all_dtypes.
Proof. destruct k; unfold all_dtypes; set_solver. Qed.

Lemma all_dtypes_NoDup : NoDup all_dtypes.
Proof. by apply (bool_decide_unpack _). Qed.

Lemma storage_kinds_table :
  storage_kind <$> _storage_classes =
  Some <$> [float64; float32; int64; int32; int16; int8; uint8; float16;
            boolean; quint8; qint8; qint32; bfloat16].
Proof. reflexivity. Qed.

(** C5: the element kinds exposed through the storage classes are exactly
    the thirteen enumerated kinds.  There are thirteen storage classes, every
    one of them holds a kind, every kind is held by some storage class, and
    two different storage classes never hold the same kind. *)
Theorem storage_classes_cover_element_kinds :
  length _storage_classes = 13 /\
  length all_dtypes = 13 /\
  storage_kind <$> _storage_classes ≡ₚ Some <$> all_dtypes /\
  (forall c, c ∈ _storage_classes -> exists k, storage_kind c = Some k) /\
  (forall k : dtype, exists c, c ∈ _storage_classes /\ storage_kind c = Some k) /\
  (forall c c', c ∈ _storage_classes -> c' ∈ _storage_classes ->
     storage_kind c = storage_kind c' -> c = c').
Proof.
  assert (perm : storage_kind <$> _storage_classes ≡ₚ Some <$> all_dtypes).
  { rewrite storage_kinds_table. apply fmap_Permutation.
    apply NoDup_Permutation.
    - by apply (bool_decide_unpack _).
    - apply all_dtypes_NoDup.
    - intros k. split; intros _; [apply all_dtypes_complete |].
      destruct k; set_solver. }
  assert (nodup : NoDup (storage_kind <$> _storage_classes)).
  { rewrite perm. apply (NoDup_fmap_2 _), all_dtypes_NoDup. }
  split_and!; try done.
  - intros c Hc.
    assert (Hin : storage_kind c ∈ storage_kind <$> _storage_classes)
      by (by apply list_elem_of_fmap_2).
    rewrite perm in Hin. apply list_elem_of_fmap in Hin as (k & -> & _). eauto.
  - intros k.
    assert (Hin : Some k ∈ storage_kind <$> _storage_classes).
    { rewrite perm. apply list_elem_of_fmap_2, all_dtypes_complete. }
    apply list_elem_of_fmap in Hin as (c & E & Hc). eauto.
  - intros c c' Hc Hc' E.
    apply list_elem_of_lookup in Hc as (i & Hi), Hc' as (j & Hj).
    assert (i = j) as ->; [| congruence].
    apply (NoDup_lookup _ i j (storage_kind c) nodup);
      rewrite list_lookup_fmap; [by rewrite Hi | by rewrite Hj, E].
Qed.

Lemma is_tensor_iff (o : pyobj) :
  is_tensor o = true <->
  subclass_of (ob_type o) Tensor \/ subclass_of (py_class o) Tensor.
Proof.
  unfold is_tensor, isinstance.
  by rewrite orb_true_iff, !issubclass_subclass_of.
Qed.

(** C8: [is_storage] tests the exact type against the thirteen storage
    classes, so an instance of a strict subclass of a storage class is not a
    storage, whereas [is_tensor] accepts an instance of every subclass of
    [torch.Tensor]; besides these it accepts only an object whose
    [__class__] answers with such a subclass. *)
Theorem is_storage_exact_is_tensor_subclass :
  (forall o, is_storage o = true <-> ob_type o ∈ _storage_classes) /\
  length _storage_classes = 13 /\
  (forall o s, s ∈ _storage_classes -> strict_subclass_of (ob_type o) s ->
     is_storage o = false) /\
  (forall o, subclass_of (ob_type o) Tensor -> is_tensor o = true) /\
  (forall o, is_tensor o = true <->
     subclass_of (ob_type o) Tensor \/ subclass_of (py_class o) Tensor).
Proof.
  split_and!.
  - apply is_storage_elem_of.
  - reflexivity.
  - intros o s Hs Hsub.
    apply not_true_is_false. rewrite is_storage_elem_of. intros Ho.
    apply storage_classes_height in Hs, Ho.
    apply strict_subclass_height in Hsub. lia.
  - intros o Hsub. apply is_tensor_iff. by left.
  - apply is_tensor_iff.
Qed.

(** A user-defined subclass of [FloatStorage] is not a storage, and a
    user-defined subclass of a subclass of [torch.Tensor] is a tensor. *)
Lemma is_storage_exact_is_tensor_subclass_witness :
  is_storage (instance_of (PyClass 100 "app" "MyStorage" false [FloatStorage])
                (Ok VNone)) = false /\
  is_tensor (instance_of
               (PyClass 102 "app" "Leaf" false
                  [PyClass 101 "app" "Mid" false [Tensor]])
               (Ok (VStr "torch.FloatTensor"))) = true.
Proof.
  split.
  - apply (proj1 (proj2 (proj2 is_storage_exact_is_tensor_subclass)) _ FloatStorage).
    + unfold _storage_classes. set_solver.
    + exists FloatStorage. split; [cbn; set_solver | constructor].
  - apply (proj1 (proj2 (proj2 (proj2 is_storage_exact_is_tensor_subclass)))).
    apply (subclass_base _ (PyClass 101 "app" "Mid" false [Tensor]));
      [cbn; set_solver |].
    apply (subclass_base _ Tensor); [cbn; set_solver | constructor].
Defined.

(** A second class with the module, name and bases of [FloatStorage] is
    another class object, and its instances are not storages; an object
    whose class overrides [__class__] to answer [torch.Tensor] is a
    tensor. *)
Example is_storage_twin_is_tensor_mock :
  is_storage
    (instance_of
       (PyClass 200 "torch" "FloatStorage" false
          [PyClass 5 "torch._C" "FloatStorageBase" false [object]; _StorageBase])
       (Ok VNone)) = false /\
  is_tensor
    {| ob_type := PyClass 201 "unittest.mock" "Mock" true [object];
       ob_class_attr := Tensor;
       ob_module := Some (VStr "unittest.mock");
       ob_qualname := None; ob_name := None;
       ob_type_method := Err (PyException "AttributeError") |} = true.
Proof. split; reflexivity. Qed.

(** ** typename *)

Lemma typename_non_tensor (o : pyobj) :
  is_tensor o = false ->
  typename o =
    (module ←
       match ob_module o with
       | Some m =>
           if bool_decide (m ≠ VStr "builtins")
              && bool_decide (m ≠ VStr "__builtin__")
              && bool_decide (m ≠ VNone)
           then str_add m (VStr ".")
           else Ok ""
       | None => Ok ""
       end;
     name ← str_add (VStr module) (class_name_of o);
     (Ok (VStr name) : result pyval)).
Proof. unfold is_tensor, typename. by intros ->. Qed.

(** C10: for a tensor, [typename] is the result of the object's [type()]
    method whatever its [__module__], [__qualname__] and [__name__] are; for
    a non-tensor whose [__module__] is ['builtins'], ['__builtin__'] or
    [None], the result is the class name alone, with no module prefix. *)
Theorem typename_tensor_and_builtin_module :
  (forall o m q n, is_tensor o = true ->
     typename (with_attrs o m q n) = ob_type_method o) /\
  (forall o s, is_tensor o = false ->
     ob_module o = Some (VStr "builtins") \/
     ob_module o = Some (VStr "__builtin__") \/
     ob_module o = Some VNone ->
     class_name_of o = VStr s ->
     typename o = Ok (VStr s)).
Proof.
  split.
  - intros o m q n Ht. unfold typename.
    change (isinstance (with_attrs o m q n) Tensor) with (is_tensor o).
    by rewrite Ht.
  - intros o s Ht Hm Hc. rewrite (typename_non_tensor _ Ht), Hc.
    by destruct Hm as [-> | [-> | ->]].
Qed.

Lemma typename_tensor_and_builtin_module_witness :
  typename (with_attrs (instance_of Tensor (Ok (VStr "torch.FloatTensor")))
              (Some (VStr "app")) (Some (VStr "Fake")) None)
    = Ok (VStr "torch.FloatTensor") /\
  typename (instance_of (PyClass 110 "builtins" "int" false [object]) (Ok VNone))
    = Ok (VStr "int").
Proof.
  split.
  - by apply (proj1 typename_tensor_and_builtin_module).
  - apply (proj2 typename_tensor_and_builtin_module); [reflexivity | | reflexivity].
    by left.
Defined.

(** ** TypeRegistry *)

Section registry_facts.
Context {F : Type}.
Implicit Types (reg : gmap tensor_type F) (calls : list (tensor_type * F)).
Import TypeRegistry.

Lemma register_lookup b k f reg t :
  snd (register b k f reg) !! t =
  match reg !! t with
  | Some g => Some g
  | None => if decide ((b, k) = t) then Some f else None
  end.
Proof.
  unfold register. destruct (reg !! (b, k)) as [g|] eqn:E; cbn [snd].
  - destruct (reg !! t) eqn:E'; [done |]. case_decide; congruence.
  - rewrite lookup_insert. case_decide; subst; [by rewrite E |].
    by destruct (reg !! t).
Qed.

Lemma register_all_lookup calls reg t :
  snd (register_all calls reg) !! t =
  match reg !! t with
  | Some g => Some g
  | None => first_registered t calls
  end.
Proof.
  revert reg. induction calls as [|[[b k] f] calls IH]; intros reg.
  - cbn. by destruct (reg !! t).
  - cbn [register_all first_registered fst snd].
    pose proof (register_lookup b k f reg t) as Hreg.
    destruct (register b k f reg) as [r reg'].
    specialize (IH reg'). destruct (register_all calls reg') as [rs reg''].
    cbn [snd] in *. rewrite IH, Hreg.
    destruct (reg !! t); [done |]. by case_decide.
Qed.

Lemma first_registered_None t calls :
  (forall f, (t, f) ∉ calls) -> first_registered t calls = None.
Proof.
  induction calls as [|[t' f] calls IH]; intros Hnot; [done |].
  cbn. case_decide as E.
  - subst. exfalso. apply (Hnot f). left.
  - apply IH. intros g Hg. apply (Hnot g). by right.
Qed.

(** C6: once [register] has succeeded for a pair, [resolve] returns the
    factory that was registered, also after any further registration
    calls; a pair that no call ever registered resolves to [UnknownType];
    and registering a registered pair again fails with
    [DuplicateRegistration], leaving the registry as it was. *)
Theorem register_then_resolve :
  (forall reg b k f calls,
     fst (register b k f reg) = Ok () ->
     resolve b k (snd (register_all calls (snd (register b k f reg)))) = Ok f) /\
  (forall calls b k,
     (forall f, ((b, k), f) ∉ calls) ->
     resolve b k (snd (register_all calls ∅)) = Err UnknownType) /\
  (forall reg b k f f',
     fst (register b k f reg) = Ok () ->
     register b k f' (snd (register b k f reg))
     = (Err DuplicateRegistration, snd (register b k f reg))).
Proof.
  split_and!.
  - intros reg b k f calls Hok. unfold resolve.
    rewrite register_all_lookup, register_lookup.
    unfold register in Hok. destruct (reg !! (b, k)); [done |].
    by rewrite decide_True.
  - intros calls b k Hnot. unfold resolve.
    rewrite register_all_lookup, lookup_empty.
    by rewrite first_registered_None.
  - intros reg b k f f' Hok. unfold register in *.
    destruct (reg !! (b, k)); [done |]. cbn [snd].
    by rewrite lookup_insert_eq.
Qed.
End registry_facts.

Lemma register_then_resolve_witness :
  TypeRegistry.resolve CPU float32
    (snd (TypeRegistry.register_all [((CPU, float64), "d"); ((CPU, float32), "x")]
       (snd (TypeRegistry.register CPU float32 "f" ∅)))) = Ok "f" /\
  TypeRegistry.resolve CUDA float16
    (snd (TypeRegistry.register_all [((CPU, float64), "d")] ∅)) = Err UnknownType /\
  TypeRegistry.register CPU float32 "g" (snd (TypeRegistry.register CPU float32 "f" ∅))
  = (Err DuplicateRegistration, snd (TypeRegistry.register CPU float32 "f" ∅)).
Proof.
  split_and!.
  - by apply (proj1 register_then_resolve).
  - apply (proj1 (proj2 register_then_resolve)).
    intros f Hin. apply list_elem_of_singleton in Hin. discriminate.
  - by apply (proj2 (proj2 register_then_resolve)).
Defined.

(** ** The default-type state *)

(** C1: [set_default_dtype] fails with [UnsupportedDefaultKind] for every
    kind that is not a floating-point kind, [int32] among them, and succeeds
    for every floating-point kind. *)
Theorem set_default_dtype_floating_only :
  (forall k st, is_floating_point k = false ->
     fst (set_default_dtype k st) = Err UnsupportedDefaultKind) /\
  (forall k st, is_floating_point k = true ->
     fst (set_default_dtype k st) = Ok ()) /\
  (forall st, fst (set_default_dtype int32 st) = Err UnsupportedDefaultKind).
Proof.
  unfold set_default_dtype, _C._set_default_dtype.
  split_and!; [intros k st -> | intros k st -> | intros st]; reflexivity.
Qed.

Lemma set_default_dtype_floating_only_witness :
  fst (set_default_dtype quint8 initial_state) = Err UnsupportedDefaultKind /\
  fst (set_default_dtype bfloat16 initial_state) = Ok ().
Proof.
  split.
  - by apply (proj1 set_default_dtype_floating_only).
  - by apply (proj1 (proj2 set_default_dtype_floating_only)).
Defined.

Section session_facts.
Context {F : Type}.
Variable reg : gmap tensor_type F.

(** A call that does not return normally leaves the state as it was. *)
Lemma step_not_returned c st :
  fst (step reg c st) ≠ Returned -> snd (step reg c st) = st.
Proof.
  destruct c as [d | [name | t] | data dt]; cbn; [| | | done].
  - unfold set_default_dtype, _C._set_default_dtype.
    by destruct (is_floating_point d).
  - destruct (_import_dotted_name reg name) as [[s | t]|e]; [done | | done].
    unfold _C._set_default_tensor_type.
    destruct (TypeRegistry.resolve _ _ reg); [| done].
    by destruct (is_floating_point (snd t)).
  - unfold _C._set_default_tensor_type.
    destruct (TypeRegistry.resolve _ _ reg); [| done].
    by destruct (is_floating_point (snd t)).
Qed.

Lemma run_cons c calls st :
  run reg (c :: calls) st =
  (fst (step reg c st) :: fst (run reg calls (snd (step reg c st))),
   snd (run reg calls (snd (step reg c st)))).
Proof.
  cbn [run]. destruct (step reg c st) as [o st']. cbn [fst snd].
  by destruct (run reg calls st') as [os st''].
Qed.

(** Until a setter returns, a construction from floating-point data without
    dtype sees the default kind the session started with. *)
Lemma run_default_until_set calls st i :
  calls !! i = Some (CallTensor FloatData None) ->
  Returned ∉ take i (fst (run reg calls st)) ->
  fst (run reg calls st) !! i = Some (Built (default_dtype st)).
Proof.
  revert st i. induction calls as [|c calls IH]; intros st i; [done |].
  rewrite run_cons. cbn [fst]. destruct i as [|i]; cbn.
  - by intros [= ->].
  - intros Hi Hnot. apply not_elem_of_cons in Hnot as [Hc Hrest].
    rewrite <- (step_not_returned c st) at 2 by done. by apply IH.
Qed.


(** C3: at process start the default element kind is 32-bit float and the
    default tensor type is the CPU float tensor, [torch.FloatTensor]; a
    floating-point construction that omits the dtype and is preceded by no
    setter call builds a 32-bit float tensor. *)
Theorem initial_defaults calls i :
  default_dtype initial_state = float32 /\
  default_tensor_type initial_state = (CPU, float32) /\
  type_name (default_tensor_type initial_state) = "torch.FloatTensor" /\
  tensor_dtype FloatData None initial_state = float32 /\
  (calls !! i = Some (CallTensor FloatData None) ->
   Forall (fun c => exists data dt, c = CallTensor data dt) (take i calls) ->
   fst (run reg calls initial_state) !! i = Some (Built float32)).
Proof.
  split_and!; try reflexivity. intros Hi Hctor.
  apply (run_default_until_set _ initial_state _ Hi).
  clear Hi. revert i Hctor. generalize initial_state.
  induction calls as [|c calls IH]; intros st i Hctor.
  - cbn [run fst]. rewrite take_nil. apply not_elem_of_nil.
  - rewrite run_cons. cbn [fst]. destruct i as [|i]; [apply not_elem_of_nil |].
    cbn [take] in *. apply Forall_cons in Hctor as [(data & dt & ->) Hctor].
    apply not_elem_of_cons. split; [done |]. by apply IH.
Qed.
End session_facts.



Lemma initial_defaults_witness :
  fst (run torch_registry
         [CallTensor IntData (Some int64); CallTensor FloatData None]
         initial_state) !! 1
  = Some (Built float32).
Proof.
  apply (proj2 (proj2 (proj2 (proj2
           (initial_defaults torch_registry _ 1))))).
  - reflexivity.
  - repeat constructor. by exists IntData, (Some int64).
Defined.

(** ** set_default_tensor_type *)



(** C9: when the dotted-name lookup raises, [set_default_tensor_type] raises
    the same exception and the default-type state is the one before the
    call; the extension's setter is never reached. *)
Theorem set_default_tensor_type_failed_import_keeps_state {T : Type}
    (import_dotted_name : string -> result (type_or_string T))
    (C_set_default_tensor_type :
       type_or_string T -> DefaultTypeState -> result unit * DefaultTypeState)
    (name : string) (e : error) (st : DefaultTypeState) :
  import_dotted_name name = Err e ->
  set_default_tensor_type import_dotted_name C_set_default_tensor_type
    (PyStr name) st = (Err e, st).
Proof. intros Himport. cbn. by rewrite Himport. Qed.

Lemma set_default_tensor_type_failed_import_keeps_state_witness :
  set_default_tensor_type (_import_dotted_name torch_registry)
    (_C._set_default_tensor_type torch_registry)
    (PyStr "torch.NoSuchTensor")
    (snd (set_default_dtype float64 initial_state))
  = (Err UnknownType, snd (set_default_dtype float64 initial_state)).
Proof.
  apply set_default_tensor_type_failed_import_keeps_state. reflexivity.
Defined.



(** ** TensorView *)

Section view_facts.
Import View.

Lemma multi_indices_valid (shape index : list nat) :
  index ∈ multi_indices shape <-> valid_index index shape.
Proof.
  unfold valid_index. revert index.
  induction shape as [|n shape IH]; intros index; cbn [multi_indices].
  - rewrite list_elem_of_singleton. split; [intros ->; constructor |].
    by inversion 1.
  - rewrite list_elem_of_bind. split.
    + intros (i & Hin & Hi). apply list_elem_of_fmap in Hin as (rest & -> & Hrest).
      apply elem_of_seq in Hi. constructor; [lia | by apply IH].
    + inversion 1 as [|i ? rest ? Hlt Hrest]; subst.
      exists i. split; [| apply elem_of_seq; lia].
      apply list_elem_of_fmap. exists rest. split; [done | by apply IH].
Qed.

Lemma construct_ok_iff storage shape stride offset :
  (exists v, construct storage shape stride offset = Ok v) <->
  (forall index, valid_index index shape ->
     project index stride offset < st_capacity storage).
Proof.
  unfold construct.
  destruct (forallb _ _) eqn:E.
  - split; [intros _ | eauto].
    rewrite forallb_forall in E. intros index Hvalid.
    apply Nat.ltb_lt, E, list_elem_of_In, multi_indices_valid, Hvalid.
  - split; [by intros [v ?] |]. intros Hall. exfalso.
    apply not_true_iff_false in E. apply E, forallb_forall.
    intros index Hin. apply Nat.ltb_lt, Hall, multi_indices_valid.
    by apply list_elem_of_In.
Qed.

(** C7: over a storage of capacity [C], [construct] succeeds exactly when
    every valid multi-index of the shape projects to an element index
    below [C], and fails with [ShapeStrideMismatch] otherwise; a view of
    shape [3], stride [1] and offset [C-1] is rejected for every [C]. *)
Theorem construct_iff_in_bounds :
  (forall storage shape stride offset,
     (exists v, construct storage shape stride offset = Ok v) <->
     (forall index, valid_index index shape ->
        project index stride offset < st_capacity storage)) /\
  (forall storage shape stride offset,
     construct storage shape stride offset = Err ShapeStrideMismatch <->
     ~ (forall index, valid_index index shape ->
          project index stride offset < st_capacity storage)) /\
  (forall storage,
     construct storage [3] [1] (st_capacity storage - 1)
     = Err ShapeStrideMismatch).
Proof.
  assert (fails : forall storage shape stride offset,
    construct storage shape stride offset = Err ShapeStrideMismatch <->
    ~ (forall index, valid_index index shape ->
         project index stride offset < st_capacity storage)).
  { intros storage shape stride offset.
    rewrite <- construct_ok_iff. unfold construct.
    destruct (forallb _ _); split; try done.
    - intros Hno. exfalso. eauto.
    - by intros _ [v ?]. }
  split_and!; [apply construct_ok_iff | exact fails |].
  intros storage. apply fails. intros Hall.
  specialize (Hall [2]). cbn in Hall.
  assert (valid_index [2] [3]) as Hvalid by (constructor; [lia | constructor]).
  specialize (Hall Hvalid). lia.
Qed.
End view_facts.

(** * Further properties of the utilities *)

(** ** typename *)

(** X1: a non-tensor whose [__module__] is a string other than ['builtins']
    and ['__builtin__'] is named by its module, a dot and its class name. *)
Theorem typename_module_prefix (o : pyobj) (m s : string) :
  is_tensor o = false ->
  ob_module o = Some (VStr m) ->
  m ≠ "builtins" -> m ≠ "__builtin__" ->
  class_name_of o = VStr s ->
  typename o = Ok (VStr ((m +:+ ".") +:+ s)).
Proof.
  intros Ht Hm Hb Hb' Hc. rewrite (typename_non_tensor _ Ht), Hm, Hc.
  rewrite !bool_decide_eq_true_2 by congruence. reflexivity.
Qed.

Lemma typename_module_prefix_witness :
  typename (instance_of (PyClass 120 "torch.nn" "Linear" false [object]) (Ok VNone))
  = Ok (VStr "torch.nn.Linear").
Proof.
  apply (typename_module_prefix _ "torch.nn" "Linear"); done.
Defined.

(** X3: an instance of a storage class is named ["torch."] followed by the
    name of its class, so [typename] tells the thirteen storage classes
    apart. *)
Theorem typename_storage_instance (c c' : pyclass) (tm tm' : result pyval) :
  c ∈ _storage_classes -> c' ∈ _storage_classes ->
  typename (instance_of c tm) = Ok (VStr ("torch." +:+ cls_name c)) /\
  (typename (instance_of c tm) = typename (instance_of c' tm') -> c = c').
Proof.
  unfold _storage_classes. rewrite !elem_of_cons, !elem_of_nil.
  intros Hc Hc'.
  repeat (destruct Hc as [-> | Hc]); try done;
    (split; [reflexivity |]);
    repeat (destruct Hc' as [-> | Hc']); try done;
    vm_compute; first [reflexivity | discriminate].
Qed.

Lemma typename_storage_instance_witness :
  typename (instance_of HalfStorage (Ok VNone)) = Ok (VStr "torch.HalfStorage").
Proof.
  apply (typename_storage_instance HalfStorage FloatStorage (Ok VNone) (Ok VNone));
    unfold _storage_classes; set_solver.
Defined.

(** ** is_tensor and is_storage *)

(** X4: no object is both a storage and a tensor. *)
Theorem is_storage_not_tensor (o : pyobj) :
  is_storage o = true -> is_tensor o = false.
Proof.
  rewrite is_storage_elem_of.
  unfold is_tensor, isinstance, py_class, _storage_classes.
  rewrite !elem_of_cons, elem_of_nil. intros H.
  repeat (destruct H as [-> | H]; [reflexivity |]). done.
Qed.

Lemma is_storage_not_tensor_witness :
  is_tensor (instance_of QInt32Storage (Ok VNone)) = false.
Proof. by apply is_storage_not_tensor. Defined.

(** X6: an instance of a class that a storage class derives from (the
    extension's [...StorageBase], [_StorageBase], [object]) is not a
    storage. *)
Theorem is_storage_not_base (o : pyobj) (s : pyclass) :
  s ∈ _storage_classes ->
  strict_subclass_of s (ob_type o) ->
  is_storage o = false.
Proof.
  intros Hs Hsub. apply not_true_is_false. rewrite is_storage_elem_of.
  intros Ho. apply storage_classes_height in Hs, Ho.
  apply strict_subclass_height in Hsub. lia.
Qed.

Lemma is_storage_not_base_witness :
  is_storage (instance_of _StorageBase (Ok VNone)) = false.
Proof.
  apply (is_storage_not_base _ ByteStorage).
  - unfold _storage_classes. set_solver.
  - exists _StorageBase. split; [cbn; set_solver | constructor].
Defined.

(** * The exported names *)

Lemma string_app_cons (x : ascii) (a b : string) :
  String x a +:+ b = String x (a +:+ b).
Proof. reflexivity. Qed.

Lemma string_app_assoc (a b c : string) : (a +:+ b) +:+ c = a +:+ (b +:+ c).
Proof.
  induction a as [|x a IH]; [done |].
  rewrite !string_app_cons. by f_equal.
Qed.

Lemma string_length_app (a b : string) :
  String.length (a +:+ b) = String.length a + String.length b.
Proof.
  induction a as [|x a IH]; [done |].
  rewrite string_app_cons. cbn [String.length]. by rewrite IH.
Qed.

Lemma substring_all (s : string) : String.substring 0 (String.length s) s = s.
Proof. induction s as [|x s IH]; cbn; [done | by rewrite IH]. Qed.

Lemma substring_skip (p s : string) (m : nat) :
  String.substring (String.length p) m (p +:+ s) = String.substring 0 m s.
Proof.
  induction p as [|x p IH]; [done |].
  rewrite string_app_cons. exact IH.
Qed.

Lemma endswith_app (p suffix : string) : endswith (p +:+ suffix) suffix = true.
Proof.
  unfold endswith. rewrite string_length_app.
  apply andb_true_iff. split; [apply Nat.leb_le; lia |].
  replace (String.length p + String.length suffix - String.length suffix)
    with (String.length p) by lia.
  rewrite substring_skip, substring_all. apply String.eqb_refl.
Qed.

Lemma exported_is_public (name : string) :
  name ≠ "" -> exported name = Ok (is_public name).
Proof.
  destruct name as [|c rest]; [done |]. intros _.
  unfold exported, is_public, startswith. cbn [String.prefix].
  destruct (ascii_dec "_" c) as [<- | Hne].
  - by destruct rest.
  - by rewrite (proj2 (Ascii.eqb_neq _ _)) by congruence.
Qed.

(** X7: the comprehension over [dir(_C)] raises [IndexError] when the
    listing holds an empty name; otherwise it keeps, in order, the names
    that neither start with an underscore nor end in ["Base"]. *)
Theorem public_names_filter (names : list string) :
  public_names names =
  if decide ("" ∈ names) then Err PyIndexError
  else Ok (List.filter is_public names).
Proof.
  induction names as [|name names IH]; [done |].
  cbn [public_names List.filter].
  destruct (decide (name = "")) as [-> | Hname].
  - by rewrite (decide_True (P := "" ∈ "" :: names)) by left.
  - rewrite (exported_is_public _ Hname), IH.
    destruct (decide ("" ∈ names)) as [Hin | Hnot].
    + by rewrite (decide_True (P := "" ∈ name :: names)) by (by right).
    + rewrite (decide_False (P := "" ∈ name :: names)).
      * by destruct (is_public name).
      * intros Hin. apply elem_of_cons in Hin as [? | ?]; congruence.
Qed.

Lemma all_literal_public : Forall (fun n => is_public n = true) __all__.
Proof. repeat constructor. Qed.

(** X8: whatever the extension defines, [__all__] keeps every name of its
    literal, and no name in it starts with an underscore or ends in
    ["Base"]; the extension's [...StorageBase] classes are never exported. *)
Theorem extend_all_public (dir_C l : list string) :
  extend_all dir_C = Ok l ->
  (forall n, n ∈ l <-> n ∈ __all__ \/ (n ∈ dir_C /\ is_public n = true)) /\
  (forall n, n ∈ l -> startswith n "_" = false /\ endswith n "Base" = false) /\
  (forall p, (p +:+ "StorageBase") ∉ l).
Proof.
  unfold extend_all. rewrite public_names_filter.
  destruct (decide ("" ∈ dir_C)) as [Hempty | Hnone]; [done |]. intros [= <-].
  assert (member : forall n, n ∈ (__all__ ++ List.filter is_public dir_C)%list <->
                     n ∈ __all__ \/ (n ∈ dir_C /\ is_public n = true)).
  { intros n. rewrite elem_of_app, !list_elem_of_In, filter_In. tauto. }
  assert (public : forall n, n ∈ (__all__ ++ List.filter is_public dir_C)%list ->
                     is_public n = true).
  { intros n Hn. apply member in Hn as [Hn | [_ Hn]]; [| done].
    pose proof all_literal_public as Hall.
    rewrite Forall_forall in Hall. by apply Hall. }
  split_and!; [exact member | |].
  - intros n Hn. apply public in Hn. unfold is_public in Hn.
    apply andb_true_iff in Hn as [H1 H2].
    by rewrite negb_true_iff in H1, H2.
  - intros p Hp. apply public in Hp. unfold is_public in Hp.
    apply andb_true_iff in Hp as [_ Hp]. rewrite negb_true_iff in Hp.
    change "StorageBase" with ("Storage" +:+ "Base") in Hp.
    by rewrite <- string_app_assoc, endswith_app in Hp.
Qed.

Lemma extend_all_public_witness :
  startswith "dtype" "_" = false /\ endswith "dtype" "Base" = false.
Proof.
  apply (proj1 (proj2 (extend_all_public
           ["HalfStorageBase"; "HalfStorage"; "_initExtension"; "dtype"] _
           eq_refl))).
  vm_compute. set_solver.
Defined.

(** * The module's globals *)

Section globals_facts.
Context {V : Type}.
Implicit Types (globals g : gmap string V) (names : list string).


Lemma del_all_lookup names g g' :
  del_all names g = Ok g' ->
  forall name, g' !! name = if decide (name ∈ names) then None else g !! name.
Proof.
  revert g. induction names as [|n names IH]; intros g.
  - intros [= <-] name. by rewrite decide_False by apply not_elem_of_nil.
  - cbn [del_all]. unfold del at 1.
    destruct (g !! n) eqn:Hn; [| done]. cbn. intros Hrest name.
    rewrite (IH _ Hrest).
    destruct (decide (name ∈ names)) as [Hin | Hnot].
    + by rewrite decide_True by (by right).
    + destruct (decide (name = n)) as [-> | Hne].
      * rewrite decide_True by left. apply lookup_delete_eq.
      * rewrite decide_False by (rewrite elem_of_cons; tauto).
        by apply lookup_delete_ne.
Qed.

Lemma del_all_ok_iff names g :
  (exists g', del_all names g = Ok g') <->
  NoDup names /\ forall name, name ∈ names -> is_Some (g !! name).
Proof.
  revert g. induction names as [|n names IH]; intros g.
  - split; [intros _ | by eexists].
    split; [constructor | by intros name ?%elem_of_nil].
  - cbn [del_all]. unfold del at 1.
    destruct (g !! n) as [v|] eqn:Hn; cbn.
    + rewrite IH, NoDup_cons. split.
      * intros [Hdup Hbound]. split_and!; [| done |].
        -- intros Hin. destruct (Hbound _ Hin) as [w Hw].
           by rewrite lookup_delete_eq in Hw.
        -- intros name [-> | Hin]%elem_of_cons; [eauto |].
           destruct (Hbound _ Hin) as [w Hw].
           destruct (decide (name = n)) as [-> | Hne];
             [by rewrite lookup_delete_eq in Hw |].
           rewrite lookup_delete_ne in Hw by done. eauto.
      * intros [[Hfresh Hdup] Hbound]. split; [done |].
        intros name Hin. rewrite lookup_delete_ne by congruence.
        apply Hbound. by right.
    + split; [by intros [g' ?] |]. intros [_ Hbound].
      destruct (Hbound n) as [w Hw]; [left | congruence].
Qed.

Lemma del_all_error names g e : del_all names g = Err e -> e = PyNameError.
Proof.
  revert g. induction names as [|n names IH]; intros g; [done |].
  cbn [del_all]. unfold del at 1. destruct (g !! n); cbn; [apply IH | congruence].
Qed.

(** X10: the ten [del] statements succeed exactly when all ten names are
    bound, and then they unbind these ten and nothing else; any failure is
    a [NameError]. *)
Theorem remove_unnecessary_members_spec globals :
  ((exists g', remove_unnecessary_members globals = Ok g') <->
   forall name, name ∈ @unnecessary_members -> is_Some (globals !! name)) /\
  (forall g' name, remove_unnecessary_members globals = Ok g' ->
     g' !! name = if decide (name ∈ @unnecessary_members) then None
                  else globals !! name) /\
  (forall e, remove_unnecessary_members globals = Err e -> e = PyNameError).
Proof.
  unfold remove_unnecessary_members. split_and!.
  - rewrite del_all_ok_iff. split; [tauto |]. intros Hbound.
    split; [| done]. unfold unnecessary_members. by apply (bool_decide_unpack _).
  - intros g' name Hok. by apply del_all_lookup.
  - apply del_all_error.
Qed.

(** X11: the base classes of [HalfStorage], [QInt8Storage] and
    [QInt32Storage] are not among the deleted names: when the deletions
    succeed, they are bound as before. *)
Theorem remove_unnecessary_members_keeps globals g' name :
  remove_unnecessary_members globals = Ok g' ->
  name ∈ ["HalfStorageBase"; "QInt8StorageBase"; "QInt32StorageBase"] ->
  g' !! name = globals !! name.
Proof.
  intros Hok Hname. rewrite (del_all_lookup _ _ _ Hok).
  apply decide_False. unfold unnecessary_members.
  rewrite !elem_of_cons, elem_of_nil in Hname.
  destruct Hname as [-> | [-> | [-> | []]]]; by apply (bool_decide_unpack _).
Qed.
End globals_facts.

Lemma remove_unnecessary_members_keeps_witness :
  exists g',
    remove_unnecessary_members
      (list_to_map ((fun n => (n, n)) <$> "HalfStorageBase" :: unnecessary_members))
    = Ok g' /\
    g' !! "HalfStorageBase" = Some "HalfStorageBase".
Proof.
  destruct (remove_unnecessary_members
              (list_to_map ((fun n => (n, n)) <$>
                 "HalfStorageBase" :: unnecessary_members))) as [g'|e] eqn:E.
  - exists g'. split; [reflexivity |].
    rewrite (remove_unnecessary_members_keeps _ _ "HalfStorageBase" E);
      [reflexivity | set_solver].
  - exfalso. vm_compute in E. discriminate.
Defined.

(** * Loading the extension *)

Section loading_facts.
Variable system : string.
Variable os_path_join : list string -> string.
Variable os_path_exists : string -> bool.
Variable os_path_dirname : string -> string.
Variable get_file_path : list string -> string.
Variable __file__ sys_exec_prefix : string.

(** X12: on Windows with [PATH] set, the new [PATH] starts with the
    directory of the library's DLLs and ends with the old [PATH], the
    entries separated by [;], and no other variable changes; with [PATH]
    unset the block raises [KeyError]; on any other system the environment
    is left as it is. *)
Theorem extend_dll_path_spec (environ : gmap string string) :
  (system = "Windows" -> forall path, environ !! "PATH" = Some path ->
     exists env' middle,
       extend_dll_path system os_path_join os_path_exists os_path_dirname
         __file__ sys_exec_prefix environ = Ok env' /\
       env' !! "PATH" =
         Some (os_path_join [os_path_dirname __file__; "lib"] +:+ ";" +:+
               middle +:+ ";" +:+ path) /\
       forall name, name ≠ "PATH" -> env' !! name = environ !! name) /\
  (system = "Windows" -> environ !! "PATH" = None ->
     extend_dll_path system os_path_join os_path_exists os_path_dirname
       __file__ sys_exec_prefix environ = Err PyKeyError) /\
  (system ≠ "Windows" ->
     extend_dll_path system os_path_join os_path_exists os_path_dirname
       __file__ sys_exec_prefix environ = Ok environ).
Proof.
  unfold extend_dll_path. split_and!.
  - intros -> path Hpath. rewrite String.eqb_refl, Hpath.
    set (nv := if os_path_exists _ then _ else "").
    exists (<["PATH" := join ";" [os_path_join [os_path_dirname __file__; "lib"];
                                  os_path_join [sys_exec_prefix; "Library"; "bin"];
                                  nv; path]]> environ),
           (os_path_join [sys_exec_prefix; "Library"; "bin"] +:+ ";" +:+ nv).
    split; [reflexivity |]. split.
    + rewrite lookup_insert_eq. f_equal. cbn [join].
      by rewrite !string_app_assoc.
    + intros name Hne. by rewrite lookup_insert_ne.
  - intros -> Hpath. by rewrite String.eqb_refl, Hpath.
  - intros Hsys. by rewrite (proj2 (String.eqb_neq _ _) Hsys).
Qed.

(** X13: [manager_path] returns the empty byte string on Windows; on any
    other system it returns the path of [torch_shm_manager] only when that
    file exists, and raises [RuntimeError] naming the path when it does
    not. *)
Theorem manager_path_spec :
  (system = "Windows" ->
     manager_path system os_path_exists get_file_path = Ok "") /\
  (system ≠ "Windows" -> forall path,
     manager_path system os_path_exists get_file_path = Ok path ->
     path = get_file_path ["torch"; "bin"; "torch_shm_manager"] /\
     os_path_exists path = true) /\
  (system ≠ "Windows" ->
     os_path_exists (get_file_path ["torch"; "bin"; "torch_shm_manager"]) = false ->
     manager_path system os_path_exists get_file_path
     = Err (PyRuntimeError
              ("Unable to find torch_shm_manager at " +:+
               get_file_path ["torch"; "bin"; "torch_shm_manager"]))).
Proof.
  unfold manager_path. split_and!.
  - intros ->. by rewrite String.eqb_refl.
  - intros Hsys path. rewrite (proj2 (String.eqb_neq _ _) Hsys).
    destruct (os_path_exists _) eqn:E; cbn; [| done].
    by intros [= <-].
  - intros Hsys Hno. by rewrite (proj2 (String.eqb_neq _ _) Hsys), Hno.
Qed.
End loading_facts.

Lemma extend_dll_path_spec_witness :
  (exists env' middle,
     extend_dll_path "Windows" (join "\") (fun _ => false) (fun _ => "C:\torch")
       "C:\torch\__init__.py" "C:\Python"
       {[ "PATH" := "C:\Windows"; "HOME" := "C:\Users\me" ]} = Ok env' /\
     env' !! "PATH" = Some ("C:\torch\lib" +:+ ";" +:+ middle +:+ ";" +:+ "C:\Windows") /\
     forall name, name ≠ "PATH" ->
       env' !! name
       = ({[ "PATH" := "C:\Windows"; "HOME" := "C:\Users\me" ]} : gmap string string)
           !! name) /\
  extend_dll_path "Windows" (join "\") (fun _ => false) (fun _ => "C:\torch")
    "C:\torch\__init__.py" "C:\Python" {[ "HOME" := "C:\Users\me" ]}
  = Err PyKeyError /\
  extend_dll_path "Linux" (join "/") (fun _ => false) (fun _ => "/opt/torch")
    "/opt/torch/__init__.py" "/usr" {[ "HOME" := "/root" ]}
  = Ok {[ "HOME" := "/root" ]}.
Proof.
  split_and!.
  - by apply (proj1 (extend_dll_path_spec "Windows" (join "\") (fun _ => false)
                       (fun _ => "C:\torch") "C:\torch\__init__.py" "C:\Python"
                       {[ "PATH" := "C:\Windows"; "HOME" := "C:\Users\me" ]})
                eq_refl "C:\Windows").
  - by apply (proj1 (proj2 (extend_dll_path_spec "Windows" (join "\")
                       (fun _ => false) (fun _ => "C:\torch")
                       "C:\torch\__init__.py" "C:\Python"
                       {[ "HOME" := "C:\Users\me" ]}))).
  - by apply (proj2 (proj2 (extend_dll_path_spec "Linux" (join "/")
                       (fun _ => false) (fun _ => "/opt/torch")
                       "/opt/torch/__init__.py" "/usr" {[ "HOME" := "/root" ]}))).
Defined.

Lemma manager_path_spec_witness :
  manager_path "Linux" (fun _ => false) (join "/")
  = Err (PyRuntimeError
           "Unable to find torch_shm_manager at torch/bin/torch_shm_manager").
Proof.
  by apply (proj2 (proj2 (manager_path_spec "Linux" (fun _ => false) (join "/")))).
Defined.
